(** * DCGAN generator and discriminator: shapes, errors and output ranges

    A shallow embedding of the notebook
    [DCGAN-Generator-Discriminator-Starter.ipynb]: the two helper blocks
    [ConvBlock] and [DeconvBlock], the [Discriminator] and the [Generator],
    over a model of the [torch.nn] layers they are assembled from.

    A tensor is its shape together with its elements.  Shapes are lists of
    integers and are computed exactly as the framework computes them; every
    exception the framework raises on incompatible shapes is a value of
    [Error].  An element is a floating-point value: NaN, an infinity, or a
    number; numbers are reals (rounding is not modelled).  The values computed
    by the layers that own weights (Linear, Conv2d, ConvTranspose2d,
    BatchNorm) depend on the random initialisation, which the notebook never
    fixes; they are a parameter [kernel] of the forward pass, of which only
    the propagation of NaN is known.  The activations own no weights and are
    defined element by element. *)

From Stdlib Require Import ZArith List Bool Reals Lra Lia.
Import ListNotations.

Set Warnings "-register-all".

(** ** Exceptions and the error monad *)

(** The exceptions the framework raises on the paths the notebook exercises. *)
Inductive Error : Type :=
| MatmulShapeError (m1_rows m1_cols m2_rows m2_cols : Z)
    (* RuntimeError: mat1 and mat2 shapes cannot be multiplied (AxB and CxD) *)
| ConvParamError (out_channels kernel_size stride padding : Z)
    (* RuntimeError: negative padding, non-positive stride, empty kernel or
       no output channel *)
| ConvDimError (ndim : Z)
    (* RuntimeError: Expected 3D (unbatched) or 4D (batched) input *)
| ConvChannelError (expected got : Z)
    (* RuntimeError: expected input to have [expected] channels *)
| ConvSizeError (in_size out_size : Z)
    (* RuntimeError: kernel larger than the padded input / output too small *)
| ConvEmptyError
    (* RuntimeError: Only zero batch or zero channel inputs are supported *)
| BatchNormDimError (ndim : Z)
    (* ValueError: expected 4D input / expected 2D or 3D input *)
| BatchNormBatchError
    (* ValueError: Expected more than 1 value per channel when training *)
| BatchNormChannelError (expected got : Z)
    (* RuntimeError: running_mean should contain [got] elements *)
| ViewSizeError (target : list Z) (numel : Z)
    (* RuntimeError: shape is invalid for input of size [numel] *)
| SizeIndexError.
    (* IndexError: dimension specified as 0 but tensor has no dimensions *)

Definition Result (A : Type) : Type := (Error + A)%type.

Definition Ok {A : Type} (a : A) : Result A := inr a.
Definition Raise {A : Type} (e : Error) : Result A := inl e.

Definition bind {A B : Type} (m : Result A) (f : A -> Result B) : Result B :=
  match m with
  | inl e => inl e
  | inr a => f a
  end.

Declare Scope result_scope.
Delimit Scope result_scope with result.
Notation "x <- m ;; k" := (bind m (fun x => k))
  (at level 61, m at next level, right associativity) : result_scope.
Open Scope result_scope.
Open Scope Z_scope.

(** ** Tensors *)

(** A floating-point element. *)
Inductive Float32 : Type :=
| NaN
| Inf (negative : bool)
| Num (r : R).

Record Tensor : Type := mkTensor { shape : list Z; data : list Float32 }.

Definition numel (sh : list Z) : Z := fold_right Z.mul 1 sh.

Definition ndim (sh : list Z) : Z := Z.of_nat (length sh).

(** [x.size(0)] *)
Definition size0 (x : Tensor) : Result Z :=
  match shape x with
  | [] => Raise SizeIndexError
  | n :: _ => Ok n
  end.

(** [x.view(d0, d1, ...)] for a target without inferred (-1) dimensions. *)
Definition view (x : Tensor) (target : list Z) : Result Tensor :=
  if numel target =? numel (shape x)
  then Ok (mkTensor target (data x))
  else Raise (ViewSizeError target (numel (shape x))).

(** ** The framework's layers *)

Module nn.

Inductive Layer : Type :=
| Conv2d (in_channels out_channels kernel_size stride padding : Z)
| ConvTranspose2d (in_channels out_channels kernel_size stride padding : Z)
| BatchNorm1d (num_features : Z)
| BatchNorm2d (num_features : Z)
| Linear (in_features out_features : Z)
| Flatten
| LeakyReLU (inplace : bool)
| Tanh
| Sigmoid
| Sequential (layers : list Layer).

(** Defaults of the constructors' keyword arguments. *)
Definition default_stride : Z := 1.
Definition default_padding : Z := 0.
Definition negative_slope : R := 0.01%R.

(** Spatial output size of a convolution (dilation 1). *)
Definition conv_out (i k s p : Z) : Z := (i + 2 * p - k) / s + 1.

(** Spatial output size of a transpose convolution
    (dilation 1, output_padding 0). *)
Definition deconv_out (i k s p : Z) : Z := (i - 1) * s - 2 * p + k.

(** The parameters a convolution cannot run with. *)
Definition bad_conv_params (cout k s p : Z) : bool :=
  (cout <? 1) || (k <? 1) || (s <? 1) || (p <? 0).

(** An image without rows or columns is an input only in a batch without
    images or without channels. *)
Definition empty_image (n c h w : Z) : bool :=
  ((h =? 0) || (w =? 0)) && negb (c =? 0) && negb (n =? 0).

(** A convolution of an input without channels returns no channel; an
    unbatched image is a batch of one. *)
Definition conv2d_shape (cin cout k s p : Z) (sh : list Z) : Result (list Z) :=
  let spatial (lead : list Z) (n c h w : Z) :=
    if negb (c =? cin) then Raise (ConvChannelError cin c)
    else if h + 2 * p <? k then Raise (ConvSizeError h (conv_out h k s p))
    else if w + 2 * p <? k then Raise (ConvSizeError w (conv_out w k s p))
    else if empty_image n c h w then Raise ConvEmptyError
    else Ok (lead ++ [if c =? 0 then 0 else cout;
                      conv_out h k s p; conv_out w k s p]) in
  if bad_conv_params cout k s p then Raise (ConvParamError cout k s p)
  else
    match sh with
    | [c; h; w] => spatial [] 1 c h w
    | [n; c; h; w] => spatial [n] n c h w
    | _ => Raise (ConvDimError (ndim sh))
    end.

(** A transposed convolution returns an empty tensor when an output side is
    zero and raises when one is negative; as a convolution, it returns no
    channel on an input without channels. *)
Definition conv_transpose2d_shape (cin cout k s p : Z) (sh : list Z)
  : Result (list Z) :=
  let spatial (lead : list Z) (n c h w : Z) :=
    if negb (c =? cin) then Raise (ConvChannelError cin c)
    else if empty_image n c h w then Raise ConvEmptyError
    else if deconv_out h k s p <? 0 then Raise (ConvSizeError h (deconv_out h k s p))
    else if deconv_out w k s p <? 0 then Raise (ConvSizeError w (deconv_out w k s p))
    else Ok (lead ++ [if c =? 0 then 0 else cout;
                      deconv_out h k s p; deconv_out w k s p]) in
  if bad_conv_params cout k s p then Raise (ConvParamError cout k s p)
  else
    match sh with
    | [c; h; w] => spatial [] 1 c h w
    | [n; c; h; w] => spatial [n] n c h w
    | _ => Raise (ConvDimError (ndim sh))
    end.

(** Batch normalisation: the dimension check of the module, then (in
    training mode) the check that a channel holds more than one value, then
    the channel count against the running statistics, which an input without
    elements is returned without. *)
Definition batch_norm_shape (training : bool) (dims_ok : Z -> bool)
    (num_features : Z) (sh : list Z) : Result (list Z) :=
  if negb (dims_ok (ndim sh)) then Raise (BatchNormDimError (ndim sh))
  else
    match sh with
    | n :: c :: rest =>
        if training && (n * numel rest =? 1) then Raise BatchNormBatchError
        else if negb (c =? num_features) && negb (numel sh =? 0)
             then Raise (BatchNormChannelError num_features c)
             else Ok sh
    | _ => Raise (BatchNormDimError (ndim sh))
    end.

(** [F.linear]: the last dimension is contracted with the weight matrix. *)
Definition linear_shape (fin fout : Z) (sh : list Z) : Result (list Z) :=
  match rev sh with
  | [] => Raise (MatmulShapeError 1 1 fin fout)
  | last :: lead =>
      if last =? fin then Ok (rev lead ++ [fout])
      else Raise (MatmulShapeError (numel lead) last fin fout)
  end.

(** [nn.Flatten()]: start_dim 1, end_dim -1. *)
Definition flatten_shape (sh : list Z) : list Z :=
  match sh with
  | [] => [1]
  | [n] => [n]
  | n :: rest => [n; numel rest]
  end.

(** Element-wise activations. *)
Definition leaky_relu (x : R) : R :=
  (Rmax 0 x + negative_slope * Rmin 0 x)%R.

Definition sigmoid (x : R) : R := (1 / (1 + exp (- x)))%R.

(** The activations on floating-point elements: NaN stays NaN, and an
    infinity goes to the limit of the function. *)
Definition leaky_relu_elem (v : Float32) : Float32 :=
  match v with
  | NaN => NaN
  | Inf negative => Inf negative
  | Num r => Num (leaky_relu r)
  end.

Definition tanh_elem (v : Float32) : Float32 :=
  match v with
  | NaN => NaN
  | Inf negative => Num (if negative then -1 else 1)
  | Num r => Num (tanh r)
  end.

Definition sigmoid_elem (v : Float32) : Float32 :=
  match v with
  | NaN => NaN
  | Inf negative => Num (if negative then 0 else 1)
  | Num r => Num (sigmoid r)
  end.

(** The kinds of layer a block is assembled from. *)
Definition is_convolution (l : Layer) : bool :=
  match l with
  | Conv2d _ _ _ _ _ | ConvTranspose2d _ _ _ _ _ => true
  | _ => false
  end.

Definition is_batch_norm (l : Layer) : bool :=
  match l with
  | BatchNorm1d _ | BatchNorm2d _ => true
  | _ => false
  end.

Definition is_activation (l : Layer) : bool :=
  match l with
  | LeakyReLU _ | Tanh | Sigmoid => true
  | _ => false
  end.

(** [module.children()] *)
Definition children (l : Layer) : list Layer :=
  match l with
  | Sequential ls => ls
  | _ => []
  end.

(** [layer.stride] of a convolution or transpose convolution. *)
Definition stride_of (l : Layer) : option Z :=
  match l with
  | Conv2d _ _ _ s _ | ConvTranspose2d _ _ _ s _ => Some s
  | _ => None
  end.

(** [torch.zeros(sh)] *)
Definition zeros (sh : list Z) : list Float32 :=
  repeat (Num 0) (Z.to_nat (numel sh)).

(** [n] elements, all NaN. *)
Definition nans (n : Z) : list Float32 := repeat NaN (Z.to_nat n).

Definition is_nan (v : Float32) : bool :=
  match v with
  | NaN => true
  | _ => false
  end.

(** The elements of a tensor that has elements are all NaN. *)
Definition all_nan (d : list Float32) : bool :=
  match d with
  | [] => false
  | _ => forallb is_nan d
  end.

(** Output shape of a layer that is not a container; [training] tells
    whether the modules are in training mode (the state of a freshly
    constructed module) or in evaluation mode. *)
Definition out_shape (training : bool) (l : Layer) (sh : list Z)
  : Result (list Z) :=
  match l with
  | Conv2d cin cout k s p => conv2d_shape cin cout k s p sh
  | ConvTranspose2d cin cout k s p => conv_transpose2d_shape cin cout k s p sh
  | BatchNorm1d c =>
      batch_norm_shape training (fun d => (d =? 2) || (d =? 3)) c sh
  | BatchNorm2d c => batch_norm_shape training (fun d => d =? 4) c sh
  | Linear fin fout => linear_shape fin fout sh
  | Flatten => Ok (flatten_shape sh)
  | LeakyReLU _ | Tanh | Sigmoid | Sequential _ => Ok sh
  end.

(** The number of elements a layer returns. *)
Definition out_count (l : Layer) (sh : list Z) : Z :=
  match out_shape false l sh with
  | inr sh' => numel sh'
  | inl _ => 0
  end.

(** The layers every element of whose result depends on an element of the
    input: a fully connected layer with an input feature, a batch norm, a
    convolution whose windows all reach into the unpadded input, a
    transposed convolution whose kernel covers its stride.  Whatever their
    weights, they return NaN everywhere on an input that is NaN everywhere,
    NaN times a weight being NaN. *)
Definition propagates_nan (l : Layer) : bool :=
  match l with
  | Linear fin _ => 1 <=? fin
  | BatchNorm1d _ | BatchNorm2d _ => true
  | Conv2d cin _ k _ p => (1 <=? cin) && (p <? k)
  | ConvTranspose2d cin _ k s _ => (1 <=? cin) && (s <=? k)
  | _ => false
  end.

(** The values computed by the layers that own weights, from the layer, the
    shape and the elements of its input. *)
Record Kernel : Type := mkKernel {
  run :> Layer -> list Z -> list Float32 -> list Float32;
  run_nan :
    forall (l : Layer) (sh : list Z) (d : list Float32),
      propagates_nan l = true -> all_nan d = true ->
      run l sh d = nans (out_count l sh)
}.

Section Forward.

Variable training : bool.
Variable kernel : Kernel.

(** Output elements of a layer that is not a container. *)
Definition out_data (l : Layer) (sh : list Z) (d : list Float32)
  : list Float32 :=
  match l with
  | LeakyReLU _ => map leaky_relu_elem d
  | Tanh => map tanh_elem d
  | Sigmoid => map sigmoid_elem d
  | Flatten | Sequential _ => d
  | _ => kernel l sh d
  end.

(** [module(x)]: a container applies its children in the order they were
    given to the constructor; an exception of a child ends the pass. *)
Fixpoint forward (l : Layer) (x : Tensor) : Result Tensor :=
  match l with
  | Sequential ls =>
      (fix run (ls : list Layer) (x : Tensor) : Result Tensor :=
         match ls with
         | [] => Ok x
         | l' :: ls' => y <- forward l' x ;; run ls' y
         end) ls x
  | _ =>
      sh <- out_shape training l (shape x) ;;
      Ok (mkTensor sh (out_data l (shape x) (data x)))
  end.

(** The children of a container applied in order. *)
Fixpoint forward_all (ls : list Layer) (x : Tensor) : Result Tensor :=
  match ls with
  | [] => Ok x
  | l :: ls' => y <- forward l x ;; forward_all ls' y
  end.

End Forward.

Arguments nans : simpl never.
Arguments zeros : simpl never.

End nn.

Coercion nn.run : nn.Kernel >-> Funclass.
Arguments nn.nans : simpl never.
Arguments nn.zeros : simpl never.

(** ** The notebook's modules *)

(** [class ConvBlock(nn.Module)]: [self.model], to which [forward] hands its
    argument. *)
Definition ConvBlock (in_channels out_channels kernel_size : Z)
    (batch_norm : bool) : nn.Layer :=
  if batch_norm then
    nn.Sequential
      [ nn.Conv2d in_channels out_channels kernel_size 2 nn.default_padding;
        nn.BatchNorm2d out_channels;
        nn.LeakyReLU true ]
  else
    nn.Sequential
      [ nn.Conv2d in_channels out_channels kernel_size
          nn.default_stride nn.default_padding;
        nn.LeakyReLU true ].

(** [class Discriminator(nn.Module)] *)
Definition Discriminator (conv_dim : Z) : nn.Layer :=
  nn.Sequential
    [ ConvBlock 3 32 4 false;
      ConvBlock 32 64 3 true;
      ConvBlock 64 128 4 true;
      ConvBlock 128 256 4 true;
      nn.Flatten;
      nn.Linear 1024 1;
      nn.Sigmoid ].

Definition Discriminator_forward (training : bool)
    (kernel : nn.Kernel)
    (self : nn.Layer) (x : Tensor) : Result Tensor :=
  nn.forward training kernel self x.

(** [class DeconvBlock(nn.Module)] *)
Definition DeconvBlock (in_channels out_channels kernel_size stride padding : Z)
    (batch_norm : bool) : nn.Layer :=
  if batch_norm then
    nn.Sequential
      [ nn.ConvTranspose2d in_channels out_channels kernel_size 2 padding;
        nn.BatchNorm2d out_channels;
        nn.LeakyReLU true ]
  else
    nn.Sequential
      [ nn.ConvTranspose2d in_channels out_channels kernel_size 2 padding;
        nn.Tanh ].

(** [class Generator(nn.Module)]: the attributes set by [__init__]. *)
Record GeneratorModule : Type := {
  fc1 : nn.Layer;
  norm1 : nn.Layer;
  lrelu : nn.Layer;
  tconv1 : nn.Layer;
  tconv2 : nn.Layer;
  tconv3 : nn.Layer;
  tconv4 : nn.Layer;
  tconv5 : nn.Layer;
  tconv6 : nn.Layer
}.

Definition Generator (latent_dim conv_dim : Z) : GeneratorModule := {|
  fc1 := nn.Linear latent_dim 8192;
  norm1 := nn.BatchNorm1d 8192;
  lrelu := nn.LeakyReLU false;
  tconv1 := DeconvBlock 512 256 4 2 0 true;
  tconv2 := DeconvBlock 256 128 4 2 0 true;
  tconv3 := DeconvBlock 128 64 4 1 0 true;
  tconv4 := DeconvBlock 64 32 4 1 0 true;
  tconv5 := DeconvBlock 32 16 4 1 0 true;
  tconv6 := DeconvBlock 16 3 4 1 1 false
|}.

(** Default value of [conv_dim] in [Generator.__init__]. *)
Definition Generator_default_conv_dim : Z := 32.

Definition Generator_forward (training : bool)
    (kernel : nn.Kernel)
    (self : GeneratorModule) (x : Tensor) : Result Tensor :=
  let call := nn.forward training kernel in
  x <- call (fc1 self) x ;;
  x <- call (norm1 self) x ;;
  x <- call (lrelu self) x ;;
  n <- size0 x ;;
  x <- view x [n; 512; 4; 4] ;;
  x <- call (tconv1 self) x ;;
  x <- call (tconv2 self) x ;;
  x <- call (tconv3 self) x ;;
  x <- call (tconv4 self) x ;;
  x <- call (tconv5 self) x ;;
  x <- call (tconv6 self) x ;;
  Ok x.


(** [block.model[0]]: the convolution a block starts with. *)
Definition block_conv (block : nn.Layer) : option nn.Layer :=
  hd_error (nn.children block).

(** The stride the convolution of a block runs with. *)
Definition block_stride (block : nn.Layer) : option Z :=
  match block_conv block with
  | Some conv => nn.stride_of conv
  | None => None
  end.

(** A kernel for concrete runs: a layer that owns weights returns NaN
    everywhere where [nn.propagates_nan] says so, and zeros of its output
    shape otherwise (on numbers, the values of a network whose Linear and
    convolution layers have zero weights and biases). *)
Definition zero_values (l : nn.Layer) (sh : list Z) (d : list Float32)
  : list Float32 :=
  if nn.propagates_nan l && nn.all_nan d then nn.nans (nn.out_count l sh)
  else
    match nn.out_shape false l sh with
    | inr sh' => nn.zeros sh'
    | inl _ => []
    end.

Definition zero_kernel : nn.Kernel.
Proof.
  refine (nn.mkKernel zero_values _).
  intros l sh d Hl Hd. unfold zero_values. rewrite Hl, Hd. reflexivity.
Defined.

(** A tensor of zeros of a given shape. *)
Definition zeros_tensor (sh : list Z) : Tensor := mkTensor sh (nn.zeros sh).

(** [torch.full(sh, float('nan'))] *)
Definition nan_tensor (sh : list Z) : Tensor :=
  mkTensor sh (nn.nans (numel sh)).

(** An element is a number of the closed interval from [lo] to [hi]. *)
Definition in_interval (lo hi : R) (v : Float32) : Prop :=
  match v with
  | Num r => (lo <= r <= hi)%R
  | _ => False
  end.

(** Every element of a tensor lies in the closed interval. *)
Definition in_range (lo hi : R) (x : Tensor) : Prop :=
  Forall (in_interval lo hi) (data x).

(** Every element of a tensor is NaN or lies in the closed interval. *)
Definition nan_or_in_range (lo hi : R) (x : Tensor) : Prop :=
  Forall (fun v => v = NaN \/ in_interval lo hi v) (data x).

(** * Properties *)

(** ** The error monad *)

Lemma bind_inr_inv {A B : Type} (m : Result A) (f : A -> Result B) (b : B) :
  bind m f = inr b -> exists a, m = inr a /\ f a = inr b.
Proof.
  destruct m as [e | a]; simpl; intros H.
  - discriminate H.
  - exists a. split; [reflexivity | exact H].
Qed.

Lemma bind_inl {A B : Type} (m : Result A) (f : A -> Result B) (e : Error) :
  m = inl e -> bind m f = inl e.
Proof. intros ->. reflexivity. Qed.

Ltac bind_inv H :=
  let a := fresh "x" in
  let Ha := fresh "H" a in
  apply bind_inr_inv in H; destruct H as (a & Ha & H).

(** ** Containers *)

Section Containers.

Variable training : bool.
Variable kernel : nn.Kernel.

Let forward := nn.forward training kernel.
Let forward_all := nn.forward_all training kernel.

Lemma forward_Sequential (ls : list nn.Layer) (x : Tensor) :
  forward (nn.Sequential ls) x = forward_all ls x.
Proof.
  unfold forward, forward_all. revert x.
  induction ls as [| l ls IH]; intros x; simpl.
  - reflexivity.
  - destruct (nn.forward training kernel l x) as [e | y]; simpl.
    + reflexivity.
    + apply IH.
Qed.

Lemma forward_all_app (ls1 ls2 : list nn.Layer) (x : Tensor) :
  forward_all (ls1 ++ ls2) x = (y <- forward_all ls1 x ;; forward_all ls2 y).
Proof.
  unfold forward_all. revert x.
  induction ls1 as [| l ls1 IH]; intros x; simpl.
  - reflexivity.
  - destruct (nn.forward training kernel l x) as [e | y]; simpl.
    + reflexivity.
    + apply IH.
Qed.

(** The result of a container is the result of its last child. *)
Lemma forward_Sequential_last (ls : list nn.Layer) (l : nn.Layer)
    (x y : Tensor) :
  forward (nn.Sequential (ls ++ [l])) x = inr y ->
  exists x', forward l x' = inr y.
Proof.
  rewrite forward_Sequential, forward_all_app. intros H.
  bind_inv H. exists x0. unfold forward_all in H. simpl in H.
  fold forward in H. destruct (forward l x0) as [e | y']; simpl in H.
  - discriminate H.
  - exact H.
Qed.

End Containers.

(** ** The activations *)

Lemma tanh_range (x : R) : (-1 <= tanh x <= 1)%R.
Proof.
  unfold tanh, sinh, cosh.
  pose proof (exp_pos x) as Ha. pose proof (exp_pos (- x)) as Hb.
  set (a := exp x) in *. set (b := exp (- x)) in *.
  replace ((a - b) / 2 / ((a + b) / 2))%R with ((a - b) / (a + b))%R
    by (field; lra).
  assert (Hs : (0 < a + b)%R) by lra.
  split.
  - apply Rmult_le_reg_r with (a + b)%R; [exact Hs |].
    unfold Rdiv. rewrite Rmult_assoc, Rinv_l by lra. lra.
  - apply Rmult_le_reg_r with (a + b)%R; [exact Hs |].
    unfold Rdiv. rewrite Rmult_assoc, Rinv_l by lra. lra.
Qed.

Lemma sigmoid_range (x : R) : (0 <= nn.sigmoid x <= 1)%R.
Proof.
  unfold nn.sigmoid.
  pose proof (exp_pos (- x)) as Hb. set (b := exp (- x)) in *.
  assert (Hs : (0 < 1 + b)%R) by lra.
  split.
  - apply Rmult_le_reg_r with (1 + b)%R; [exact Hs |].
    unfold Rdiv. rewrite Rmult_assoc, Rinv_l by lra. lra.
  - apply Rmult_le_reg_r with (1 + b)%R; [exact Hs |].
    unfold Rdiv. rewrite Rmult_assoc, Rinv_l by lra. lra.
Qed.

Lemma tanh_elem_range (v : Float32) :
  nn.tanh_elem v = NaN \/ in_interval (-1) 1 (nn.tanh_elem v).
Proof.
  destruct v as [| negative | r]; simpl.
  - left. reflexivity.
  - right. destruct negative; lra.
  - right. apply tanh_range.
Qed.

Lemma sigmoid_elem_range (v : Float32) :
  nn.sigmoid_elem v = NaN \/ in_interval 0 1 (nn.sigmoid_elem v).
Proof.
  destruct v as [| negative | r]; simpl.
  - left. reflexivity.
  - right. destruct negative; lra.
  - right. apply sigmoid_range.
Qed.

Lemma forward_Tanh_range training kernel (x y : Tensor) :
  nn.forward training kernel nn.Tanh x = inr y -> nan_or_in_range (-1) 1 y.
Proof.
  simpl. intros H. injection H as <-. unfold nan_or_in_range. simpl.
  apply Forall_map, Forall_forall. intros v _. apply tanh_elem_range.
Qed.

Lemma forward_Sigmoid_range training kernel (x y : Tensor) :
  nn.forward training kernel nn.Sigmoid x = inr y -> nan_or_in_range 0 1 y.
Proof.
  simpl. intros H. injection H as <-. unfold nan_or_in_range. simpl.
  apply Forall_map, Forall_forall. intros v _. apply sigmoid_elem_range.
Qed.

(** ** NaN through the layers *)

Lemma all_nan_nans (n : Z) : 0 < n -> nn.all_nan (nn.nans n) = true.
Proof.
  intros Hn. unfold nn.nans.
  destruct (Z.to_nat n) as [| m] eqn:E; [lia |].
  change (forallb nn.is_nan (repeat NaN (S m)) = true).
  apply forallb_forall. intros v Hv. apply repeat_spec in Hv. subst v.
  reflexivity.
Qed.

Lemma map_nans (f : Float32 -> Float32) (n : Z) :
  f NaN = NaN -> map f (nn.nans n) = nn.nans n.
Proof. intros E. unfold nn.nans. rewrite map_repeat, E. reflexivity. Qed.

Lemma map_leaky_relu_nans (n : Z) :
  map nn.leaky_relu_elem (nn.nans n) = nn.nans n.
Proof. apply map_nans. reflexivity. Qed.

Lemma map_tanh_nans (n : Z) : map nn.tanh_elem (nn.nans n) = nn.nans n.
Proof. apply map_nans. reflexivity. Qed.

Lemma map_sigmoid_nans (n : Z) : map nn.sigmoid_elem (nn.nans n) = nn.nans n.
Proof. apply map_nans. reflexivity. Qed.

(** A layer that owns weights returns NaN everywhere on an input that is
    NaN everywhere, whatever the weights. *)
Lemma run_nans (kernel : nn.Kernel) (l : nn.Layer) (sh : list Z) (n : Z) :
  nn.propagates_nan l = true -> (0 <? n) = true ->
  kernel l sh (nn.nans n) = nn.nans (nn.out_count l sh).
Proof.
  intros Hl Hn. apply nn.run_nan; [exact Hl |].
  apply all_nan_nans. apply Z.ltb_lt. exact Hn.
Qed.

Lemma nans_not_in_interval (lo hi : R) (n : Z) :
  0 < n -> ~ Forall (in_interval lo hi) (nn.nans n).
Proof.
  intros Hn H. unfold nn.nans in H.
  destruct (Z.to_nat n) as [| m] eqn:E; [lia |].
  simpl in H. inversion H as [| v l Hv _]. exact Hv.
Qed.

(** Follows NaN through the layers of a forward pass that has been run. *)
Ltac nan_step :=
  first [ rewrite map_leaky_relu_nans
        | rewrite map_tanh_nans
        | rewrite map_sigmoid_nans
        | rewrite run_nans by reflexivity ].

(** ** Shapes through the layers *)

(** A batch-norm layer in training mode rejects an input with one value per
    channel; [batch_check] settles that test where the count is known not to
    be one. *)
Ltac batch_check :=
  match goal with
  | |- context [ ?n * ?m =? 1 ] =>
      destruct (Z.eqb_spec (n * m) 1); [lia |]; cbn
  end.

(** Runs the forward pass of a module on an input of known shape. *)
Ltac run_forward :=
  unfold Generator_forward, Discriminator_forward, Generator, Discriminator,
    DeconvBlock, ConvBlock, view;
  cbn.

(** The transposed convolutions of the generator, one after the other, on a
    4 x 4 input: the sizes printed by the layers as the code builds them. *)
Lemma Generator_spatial_sizes :
  map (fun i => nn.deconv_out i 4 2 0) [4; 10; 22; 46; 94] = [10; 22; 46; 94; 190]
  /\ nn.deconv_out 190 4 2 1 = 380.
Proof. split; reflexivity. Qed.

(** The same chain with the strides the generator hands to its blocks
    (2, 2, 1, 1, 1, 1) ends at 32. *)
Lemma Generator_spatial_sizes_with_given_strides :
  nn.deconv_out
    (nn.deconv_out
       (nn.deconv_out
          (nn.deconv_out (nn.deconv_out (nn.deconv_out 4 4 2 0) 4 2 0) 4 1 0)
          4 1 0)
       4 1 0)
    4 1 1 = 32.
Proof. reflexivity. Qed.

(** The generator on a two-dimensional latent batch: whenever the first batch
    norm accepts the batch (evaluation mode, or more than one sample), the
    forward pass returns 380 x 380 images. *)
Lemma Generator_forward_2d training kernel (L c B : Z) (d : list Float32) :
  (training = true -> B <> 1) ->
  exists y,
    Generator_forward training kernel (Generator L c) (mkTensor [B; L] d) = inr y
    /\ shape y = [B; 3; 380; 380].
Proof.
  intros HB. unfold Generator_forward, Generator, DeconvBlock, view.
  destruct training; cbn; rewrite Z.eqb_refl; cbn.
  - specialize (HB eq_refl). batch_check. rewrite Z.eqb_refl. cbn.
    repeat batch_check. eexists. split; reflexivity.
  - rewrite Z.eqb_refl. cbn. eexists. split; reflexivity.
Qed.

(** ** The generator *)

(** C1.  [Generator(128)] on a latent batch of shape (16, 128) returns a
    tensor of shape (16, 3, 380, 380), and so not one of shape
    (16, 3, 32, 32): every block runs its transposed convolution with stride
    2, whatever stride it was built with. *)
Theorem Generator_returns_380_not_32 :
  forall training kernel (d : list Float32),
  exists y,
    Generator_forward training kernel
      (Generator 128 Generator_default_conv_dim) (mkTensor [16; 128] d) = inr y
    /\ shape y = [16; 3; 380; 380]
    /\ shape y <> [16; 3; 32; 32].
Proof.
  intros training kernel d.
  destruct (Generator_forward_2d training kernel 128
              Generator_default_conv_dim 16 d) as (y & Hy & Hs).
  - intros _. discriminate.
  - exists y. repeat split; [exact Hy | exact Hs |].
    rewrite Hs. discriminate.
Qed.

(** C5.  A [DeconvBlock] runs its transposed convolution with stride 2 for
    every value of its [stride] argument; the block the generator builds as
    [DeconvBlock(128, 64, 4, 1, 0, True)] takes a 22 x 22 input to 46 x 46,
    where stride 1 gives 25 x 25. *)
Theorem DeconvBlock_stride_is_always_2 :
  forall cin cout k stride padding batch_norm,
    block_conv (DeconvBlock cin cout k stride padding batch_norm)
      = Some (nn.ConvTranspose2d cin cout k 2 padding)
    /\ block_stride (DeconvBlock cin cout k stride padding batch_norm) = Some 2
    /\ block_stride (tconv3 (Generator 128 Generator_default_conv_dim)) <> Some 1
    /\ nn.deconv_out 22 4 2 0 = 46
    /\ nn.deconv_out 22 4 1 0 = 25.
Proof.
  intros cin cout k stride padding batch_norm.
  repeat split; try (destruct batch_norm; reflexivity).
  discriminate.
Qed.

(** C6.  On a four-dimensional latent batch of shape (B, 128, 1, 1) the first
    fully connected layer raises the shape-mismatch error of the matrix
    product (B*128 x 1 against 128 x 8192), and the forward pass of the
    generator ends with that very error. *)
Theorem Generator_4d_latent_raises_at_fc1 :
  forall training kernel (B : Z) (d : list Float32),
    let g := Generator 128 Generator_default_conv_dim in
    let z := mkTensor [B; 128; 1; 1] d in
    nn.forward training kernel (fc1 g) z
      = inl (MatmulShapeError (B * 128) 1 128 8192)
    /\ Generator_forward training kernel g z
      = inl (MatmulShapeError (B * 128) 1 128 8192).
Proof.
  intros training kernel B d g z.
  assert (E : nn.forward training kernel (fc1 g) z
              = inl (MatmulShapeError (B * 128) 1 128 8192)).
  { assert (En : numel [1; 128; B] = B * 128)
      by (cbv [numel fold_right]; lia).
    rewrite <- En. reflexivity. }
  split; [exact E |].
  unfold Generator_forward. apply bind_inl. exact E.
Qed.

(** The run recorded in the notebook: [tests.check_generator(generator, 128)]
    feeds a batch of shape (16, 128, 1, 1) and the pass ends with
    "mat1 and mat2 shapes cannot be multiplied (2048x1 and 128x8192)". *)
Example notebook_check_generator_run (d : list Float32) :
  Generator_forward true zero_kernel
    (Generator 128 Generator_default_conv_dim) (mkTensor [16; 128; 1; 1] d)
  = inl (MatmulShapeError 2048 1 128 8192).
Proof. reflexivity. Qed.

(** C3, as stated, fails: on a latent batch of shape (16, 128) that is NaN
    everywhere the forward pass of the generator returns, and the tensor it
    returns, of shape (16, 3, 380, 380), is NaN everywhere, the tanh of NaN
    being NaN; its elements do not lie in [-1, 1]. *)
Lemma Generator_returns_nan_on_nan_input :
  exists y,
    Generator_forward true zero_kernel
      (Generator 128 Generator_default_conv_dim) (nan_tensor [16; 128])
      = inr y
    /\ shape y = [16; 3; 380; 380]
    /\ data y = nn.nans (numel [16; 3; 380; 380])
    /\ ~ in_range (-1) 1 y.
Proof.
  unfold nan_tensor. generalize zero_kernel as K. intros K.
  assert (E : exists y,
             Generator_forward true K
               (Generator 128 Generator_default_conv_dim)
               (mkTensor [16; 128] (nn.nans (numel [16; 128]))) = inr y
             /\ shape y = [16; 3; 380; 380]
             /\ data y = nn.nans (numel [16; 3; 380; 380])).
  { eexists. split; [run_forward; reflexivity |].
    split; [reflexivity |]. cbn [data]. repeat nan_step. reflexivity. }
  destruct E as (y & Hy & Hs & Hd). exists y.
  repeat (split; [assumption |]).
  unfold in_range. rewrite Hd. apply nans_not_in_interval. reflexivity.
Qed.

(** C3, amended.  Whenever the forward pass of the generator returns a
    tensor, each of its elements is NaN or lies in [-1, 1]: the last layer
    applied is the tanh of the sixth block. *)
Theorem Generator_output_nan_or_range :
  forall training kernel (L c : Z) (x y : Tensor),
    Generator_forward training kernel (Generator L c) x = inr y ->
    nan_or_in_range (-1) 1 y.
Proof.
  intros training kernel L c x y H. unfold Generator_forward in H.
  do 11 bind_inv H. injection H as <-.
  change (tconv6 (Generator L c))
    with (nn.Sequential ([nn.ConvTranspose2d 16 3 4 2 1] ++ [nn.Tanh])) in Hx10.
  apply forward_Sequential_last in Hx10. destruct Hx10 as (x' & Hx').
  exact (forward_Tanh_range _ _ _ _ Hx').
Qed.

Lemma Generator_output_nan_or_range_witness :
  exists y,
    Generator_forward true zero_kernel
      (Generator 128 Generator_default_conv_dim) (zeros_tensor [16; 128])
      = inr y
    /\ nan_or_in_range (-1) 1 y.
Proof.
  unfold zeros_tensor.
  generalize (nn.zeros [16; 128]) as d. generalize zero_kernel as K.
  intros K d. eexists. split.
  - run_forward. reflexivity.
  - apply (Generator_output_nan_or_range true K 128
             Generator_default_conv_dim (mkTensor [16; 128] d)).
    run_forward. reflexivity.
Defined.

(** ** The discriminator *)

(** C2.  For every batch size B, [Discriminator(conv_dim)] takes a tensor of
    shape (B, 3, 32, 32) to a tensor of shape (B, 1). *)
Theorem Discriminator_output_shape :
  forall training kernel (conv_dim B : Z) (d : list Float32),
    0 < B ->
    exists y,
      Discriminator_forward training kernel (Discriminator conv_dim)
        (mkTensor [B; 3; 32; 32] d) = inr y
      /\ shape y = [B; 1].
Proof.
  intros training kernel conv_dim B d HB.
  unfold Discriminator_forward, Discriminator, ConvBlock.
  destruct training; cbn.
  - repeat batch_check. eexists. split; reflexivity.
  - eexists. split; reflexivity.
Qed.

Lemma Discriminator_output_shape_witness :
  0 < 16
  /\ exists y,
       Discriminator_forward true zero_kernel (Discriminator 64)
         (zeros_tensor [16; 3; 32; 32]) = inr y
       /\ shape y = [16; 1].
Proof.
  split; [reflexivity |].
  apply (Discriminator_output_shape true zero_kernel 64 16
           (nn.zeros [16; 3; 32; 32])).
  reflexivity.
Defined.

(** C4, as stated, fails: on a batch of images of shape (16, 3, 32, 32) that
    is NaN everywhere the forward pass of the discriminator returns, and the
    tensor it returns, of shape (16, 1), is NaN everywhere, the sigmoid of
    NaN being NaN; its elements do not lie in [0, 1]. *)
Lemma Discriminator_returns_nan_on_nan_input :
  exists y,
    Discriminator_forward true zero_kernel (Discriminator 64)
      (nan_tensor [16; 3; 32; 32]) = inr y
    /\ shape y = [16; 1]
    /\ data y = nn.nans (numel [16; 1])
    /\ ~ in_range 0 1 y.
Proof.
  unfold nan_tensor. generalize zero_kernel as K. intros K.
  assert (E : exists y,
             Discriminator_forward true K (Discriminator 64)
               (mkTensor [16; 3; 32; 32] (nn.nans (numel [16; 3; 32; 32])))
             = inr y
             /\ shape y = [16; 1]
             /\ data y = nn.nans (numel [16; 1])).
  { eexists. split; [run_forward; reflexivity |].
    split; [reflexivity |]. cbn [data]. repeat nan_step. reflexivity. }
  destruct E as (y & Hy & Hs & Hd). exists y.
  repeat (split; [assumption |]).
  unfold in_range. rewrite Hd. apply nans_not_in_interval. reflexivity.
Qed.

(** C4, amended.  Whenever the forward pass of the discriminator returns a
    tensor, each of its elements is NaN or lies in [0, 1]: the last layer
    applied is the sigmoid. *)
Theorem Discriminator_output_nan_or_range :
  forall training kernel (conv_dim : Z) (x y : Tensor),
    Discriminator_forward training kernel (Discriminator conv_dim) x = inr y ->
    nan_or_in_range 0 1 y.
Proof.
  intros training kernel conv_dim x y H. unfold Discriminator_forward in H.
  change (Discriminator conv_dim)
    with (nn.Sequential
            ([ ConvBlock 3 32 4 false; ConvBlock 32 64 3 true;
               ConvBlock 64 128 4 true; ConvBlock 128 256 4 true;
               nn.Flatten; nn.Linear 1024 1 ] ++ [nn.Sigmoid])) in H.
  apply forward_Sequential_last in H. destruct H as (x' & Hx').
  exact (forward_Sigmoid_range _ _ _ _ Hx').
Qed.

Lemma Discriminator_output_nan_or_range_witness :
  exists y,
    Discriminator_forward true zero_kernel (Discriminator 64)
      (zeros_tensor [16; 3; 32; 32]) = inr y
    /\ nan_or_in_range 0 1 y.
Proof.
  unfold zeros_tensor.
  generalize (nn.zeros [16; 3; 32; 32]) as d. generalize zero_kernel as K.
  intros K d. eexists. split.
  - run_forward. reflexivity.
  - apply (Discriminator_output_nan_or_range true K 64
             (mkTensor [16; 3; 32; 32] d)).
    run_forward. reflexivity.
Defined.

(** ** The blocks *)

(** C7.  A [ConvBlock] and a [DeconvBlock] are a convolution, then a batch
    normalisation exactly when [batch_norm] is true, then an activation, and
    the forward pass applies them in that order. *)
Theorem block_is_conv_norm_activation :
  forall (cin cout k stride padding : Z) (batch_norm : bool),
    let norm := if batch_norm then [nn.BatchNorm2d cout] else [] in
    let ordered (block : nn.Layer) :=
      exists conv act,
        nn.is_convolution conv = true
        /\ nn.is_activation act = true
        /\ nn.children block = conv :: norm ++ [act]
        /\ existsb nn.is_batch_norm (nn.children block) = batch_norm
        /\ forall training kernel x,
             nn.forward training kernel block x
             = (y <- nn.forward training kernel conv x ;;
                y <- nn.forward_all training kernel norm y ;;
                nn.forward training kernel act y) in
    ordered (ConvBlock cin cout k batch_norm)
    /\ ordered (DeconvBlock cin cout k stride padding batch_norm).
Proof.
  intros cin cout k stride padding batch_norm norm ordered.
  subst norm ordered. split.
  - destruct batch_norm; unfold ConvBlock.
    + exists (nn.Conv2d cin cout k 2 nn.default_padding), (nn.LeakyReLU true).
      do 4 (split; [reflexivity |]). intros training kernel x.
      rewrite forward_Sequential. simpl.
      destruct (nn.conv2d_shape _ _ _ _ _ _); simpl; [reflexivity |].
      destruct (nn.batch_norm_shape _ _ _ _); reflexivity.
    + exists (nn.Conv2d cin cout k nn.default_stride nn.default_padding),
        (nn.LeakyReLU true).
      do 4 (split; [reflexivity |]). intros training kernel x.
      rewrite forward_Sequential. simpl.
      destruct (nn.conv2d_shape _ _ _ _ _ _); reflexivity.
  - destruct batch_norm; unfold DeconvBlock.
    + exists (nn.ConvTranspose2d cin cout k 2 padding), (nn.LeakyReLU true).
      do 4 (split; [reflexivity |]). intros training kernel x.
      rewrite forward_Sequential. simpl.
      destruct (nn.conv_transpose2d_shape _ _ _ _ _ _); simpl; [reflexivity |].
      destruct (nn.batch_norm_shape _ _ _ _); reflexivity.
    + exists (nn.ConvTranspose2d cin cout k 2 padding), nn.Tanh.
      do 4 (split; [reflexivity |]). intros training kernel x.
      rewrite forward_Sequential. simpl.
      destruct (nn.conv_transpose2d_shape _ _ _ _ _ _); reflexivity.
Qed.

(** C10.  The stride of the convolution of a [ConvBlock] is 2 when
    [batch_norm] is true and 1, the default of the framework, when it is
    false, whatever the other arguments; the first block of the discriminator
    has stride 1 and takes 32 x 32 images to 29 x 29. *)
Theorem ConvBlock_stride_follows_batch_norm :
  forall (cin cout k conv_dim : Z) (batch_norm : bool),
    block_stride (ConvBlock cin cout k batch_norm)
      = Some (if batch_norm then 2 else nn.default_stride)
    /\ nn.default_stride = 1
    /\ hd_error (nn.children (Discriminator conv_dim))
        = Some (ConvBlock 3 32 4 false)
    /\ block_stride (ConvBlock 3 32 4 false) = Some 1
    /\ forall training kernel (B : Z) (d : list Float32),
         exists d',
           nn.forward training kernel (ConvBlock 3 32 4 false)
             (mkTensor [B; 3; 32; 32] d)
           = inr (mkTensor [B; 32; 29; 29] d').
Proof.
  intros cin cout k conv_dim batch_norm. repeat split.
  - destruct batch_norm; reflexivity.
  - intros training kernel B d. eexists. reflexivity.
Qed.

(** C8.  The [conv_dim] argument has no influence: two discriminators built
    with different values are the same module and compute the same function,
    and so are two generators of the same latent dimension. *)
Theorem conv_dim_has_no_influence :
  forall (c1 c2 L : Z),
    Discriminator c1 = Discriminator c2
    /\ Generator L c1 = Generator L c2
    /\ (forall training kernel x,
          Discriminator_forward training kernel (Discriminator c1) x
          = Discriminator_forward training kernel (Discriminator c2) x)
    /\ (forall training kernel x,
          Generator_forward training kernel (Generator L c1) x
          = Generator_forward training kernel (Generator L c2) x).
Proof.
  intros c1 c2 L. repeat split; reflexivity.
Qed.

(** ** The reshape in [Generator.forward] *)

Lemma forward_BatchNorm1d_shape training kernel (c : Z) (x y : Tensor) :
  nn.forward training kernel (nn.BatchNorm1d c) x = inr y -> shape y = shape x.
Proof.
  simpl. unfold nn.batch_norm_shape. intros H.
  destruct (negb _); [discriminate H |].
  destruct (shape x) as [| n [| ch rest]]; try discriminate H.
  destruct (training && _); [discriminate H |].
  destruct (negb _ && negb _); [discriminate H |].
  injection H as <-. reflexivity.
Qed.

Lemma forward_LeakyReLU_shape training kernel (b : bool) (x y : Tensor) :
  nn.forward training kernel (nn.LeakyReLU b) x = inr y -> shape y = shape x.
Proof. simpl. intros H. injection H as <-. reflexivity. Qed.

(** C9, as stated, fails: a three-dimensional input of shape (2, 8192, 128)
    passes the fully connected layer, which returns shape (2, 8192, 8192),
    then the batch norm and the leaky ReLU, and the reshape to (2, 512, 4, 4)
    raises, its input holding 2 * 8192 * 8192 elements. *)
Lemma view_fails_after_fc1_on_3d_input :
  let g := Generator 128 Generator_default_conv_dim in
  let forward := nn.forward true zero_kernel in
  let x := zeros_tensor [2; 8192; 128] in
  exists x1 x2 x3,
    forward (fc1 g) x = inr x1
    /\ shape x1 = [2; 8192; 8192]
    /\ forward (norm1 g) x1 = inr x2
    /\ forward (lrelu g) x2 = inr x3
    /\ size0 x3 = inr 2
    /\ view x3 [2; 512; 4; 4] = inl (ViewSizeError [2; 512; 4; 4] 134217728)
    /\ Generator_forward true zero_kernel g x
       = inl (ViewSizeError [2; 512; 4; 4] 134217728).
Proof.
  unfold zeros_tensor.
  generalize (nn.zeros [2; 8192; 128]) as d. generalize zero_kernel as K.
  intros K d. cbv zeta. do 3 eexists.
  split; [run_forward; reflexivity |].
  split; [reflexivity |].
  split; [run_forward; reflexivity |].
  split; [run_forward; reflexivity |].
  split; [reflexivity |].
  split; [run_forward; reflexivity |].
  run_forward. reflexivity.
Qed.

(** C9, amended.  For every latent dimension L and every two-dimensional
    input of shape (B, L), the fully connected layer returns shape
    (B, 8192), and whenever the batch norm and the leaky ReLU that follow
    return, the reshape to (B, 512, 4, 4) succeeds. *)
Theorem view_succeeds_on_2d_latent :
  forall training kernel (L c B : Z) (d : list Float32),
    let g := Generator L c in
    let forward := nn.forward training kernel in
    let x1 := mkTensor [B; 8192] (kernel (fc1 g) [B; L] d) in
    forward (fc1 g) (mkTensor [B; L] d) = inr x1
    /\ forall x2 x3,
         forward (norm1 g) x1 = inr x2 ->
         forward (lrelu g) x2 = inr x3 ->
         size0 x3 = inr B
         /\ view x3 [B; 512; 4; 4]
            = inr (mkTensor [B; 512; 4; 4] (data x3)).
Proof.
  intros training kernel L c B d g forward x1. subst g forward x1. split.
  - cbn. rewrite Z.eqb_refl. reflexivity.
  - intros x2 x3 H2 H3.
    apply forward_BatchNorm1d_shape in H2.
    apply forward_LeakyReLU_shape in H3.
    rewrite H2 in H3. cbn in H3.
    unfold size0, view. rewrite H3. split; [reflexivity |].
    replace (numel [B; 512; 4; 4]) with (numel [B; 8192])
      by (cbv [numel fold_right]; lia).
    rewrite Z.eqb_refl. reflexivity.
Qed.

Lemma view_succeeds_on_2d_latent_witness :
  let g := Generator 128 Generator_default_conv_dim in
  let forward := nn.forward true zero_kernel in
  let x1 :=
    mkTensor [16; 8192] (zero_kernel (fc1 g) [16; 128] (nn.zeros [16; 128])) in
  exists x2 x3,
    forward (norm1 g) x1 = inr x2
    /\ forward (lrelu g) x2 = inr x3
    /\ size0 x3 = inr 16
    /\ view x3 [16; 512; 4; 4] = inr (mkTensor [16; 512; 4; 4] (data x3)).
Proof.
  generalize (nn.zeros [16; 128]) as d. generalize zero_kernel as K.
  intros K d. cbv zeta. do 2 eexists.
  split; [run_forward; reflexivity |].
  split; [run_forward; reflexivity |].
  apply (proj2 (view_succeeds_on_2d_latent true K 128
                  Generator_default_conv_dim 16 d)
           (mkTensor [16; 8192]
              (K (nn.BatchNorm1d 8192) [16; 8192]
                 (K (nn.Linear 128 8192) [16; 128] d))));
    run_forward; reflexivity.
Defined.

(** * Further properties of the blocks and of the two networks *)

(** ** What a layer that returns tells about its input *)

Section LayerShapes.

Variable training : bool.
Variable kernel : nn.Kernel.

Let forward := nn.forward training kernel.

Lemma numel_rev (sh : list Z) : numel (rev sh) = numel sh.
Proof.
  unfold numel. induction sh as [| a sh IH]; simpl.
  - reflexivity.
  - rewrite fold_right_app. simpl. rewrite <- IH.
    generalize (rev sh) as l. intros l.
    induction l as [| b l IHl]; simpl; [lia |]. rewrite IHl. lia.
Qed.

Lemma empty_image_false (n c h w : Z) :
  1 <= h -> 1 <= w -> nn.empty_image n c h w = false.
Proof.
  intros Hh Hw. unfold nn.empty_image.
  destruct (Z.eqb_spec h 0); [lia |]. destruct (Z.eqb_spec w 0); [lia |].
  reflexivity.
Qed.

Lemma bad_conv_params_ok (cout k s p : Z) :
  1 <= cout -> 1 <= k -> 1 <= s -> 0 <= p ->
  nn.bad_conv_params cout k s p = false.
Proof.
  intros Hc Hk Hs Hp. unfold nn.bad_conv_params.
  repeat (apply orb_false_iff; split); apply Z.ltb_ge; lia.
Qed.

(** A convolution returns on a batched or an unbatched image with the right
    number of channels and at least the size of the kernel. *)
Lemma forward_Conv2d_inv (cin cout k s p : Z) (x y : Tensor) :
  forward (nn.Conv2d cin cout k s p) x = inr y ->
  exists lead h w,
    (lead = [] \/ exists n, lead = [n])
    /\ shape x = lead ++ [cin; h; w]
    /\ k <= h + 2 * p /\ k <= w + 2 * p
    /\ shape y = lead ++ [if cin =? 0 then 0 else cout;
                           nn.conv_out h k s p; nn.conv_out w k s p].
Proof.
  unfold forward. simpl. unfold nn.conv2d_shape. intros H.
  destruct (nn.bad_conv_params cout k s p); [discriminate H |].
  destruct (shape x) as [| a [| b [| c0 [| e [| ? ?]]]]]; try discriminate H.
  - destruct (Z.eqb_spec a cin) as [-> | _]; [| discriminate H].
    destruct (Z.ltb_spec (b + 2 * p) k); [discriminate H |].
    destruct (Z.ltb_spec (c0 + 2 * p) k); [discriminate H |].
    destruct (nn.empty_image _ _ _ _); [discriminate H |].
    simpl in H. injection H as <-.
    exists [], b, c0. simpl. repeat split; auto.
  - destruct (Z.eqb_spec b cin) as [-> | _]; [| discriminate H].
    destruct (Z.ltb_spec (c0 + 2 * p) k); [discriminate H |].
    destruct (Z.ltb_spec (e + 2 * p) k); [discriminate H |].
    destruct (nn.empty_image _ _ _ _); [discriminate H |].
    simpl in H. injection H as <-.
    exists [a], c0, e. simpl. repeat split; eauto.
Qed.

Lemma forward_ConvTranspose2d_inv (cin cout k s p : Z) (x y : Tensor) :
  forward (nn.ConvTranspose2d cin cout k s p) x = inr y ->
  exists lead h w,
    (lead = [] \/ exists n, lead = [n])
    /\ shape x = lead ++ [cin; h; w]
    /\ 0 <= nn.deconv_out h k s p /\ 0 <= nn.deconv_out w k s p
    /\ shape y = lead ++ [if cin =? 0 then 0 else cout;
                           nn.deconv_out h k s p; nn.deconv_out w k s p].
Proof.
  unfold forward. simpl. unfold nn.conv_transpose2d_shape. intros H.
  destruct (nn.bad_conv_params cout k s p); [discriminate H |].
  destruct (shape x) as [| a [| b [| c0 [| e [| ? ?]]]]]; try discriminate H.
  - destruct (Z.eqb_spec a cin) as [-> | _]; [| discriminate H].
    destruct (nn.empty_image _ _ _ _); [discriminate H |].
    destruct (Z.ltb_spec (nn.deconv_out b k s p) 0); [discriminate H |].
    destruct (Z.ltb_spec (nn.deconv_out c0 k s p) 0); [discriminate H |].
    simpl in H. injection H as <-.
    exists [], b, c0. simpl. repeat split; auto.
  - destruct (Z.eqb_spec b cin) as [-> | _]; [| discriminate H].
    destruct (nn.empty_image _ _ _ _); [discriminate H |].
    destruct (Z.ltb_spec (nn.deconv_out c0 k s p) 0); [discriminate H |].
    destruct (Z.ltb_spec (nn.deconv_out e k s p) 0); [discriminate H |].
    simpl in H. injection H as <-.
    exists [a], c0, e. simpl. repeat split; eauto.
Qed.

Lemma ndim_4_inv (sh : list Z) :
  ndim sh = 4 -> exists a b c d, sh = [a; b; c; d].
Proof.
  unfold ndim. intros H.
  destruct sh as [| a [| b [| c [| d [| ? ?]]]]]; simpl length in H; try lia.
  exists a, b, c, d. reflexivity.
Qed.

(** A two-dimensional batch norm returns its input shape, on four-dimensional
    inputs only. *)
Lemma forward_BatchNorm2d_inv (c : Z) (x y : Tensor) :
  forward (nn.BatchNorm2d c) x = inr y ->
  exists n c' h w,
    shape x = [n; c'; h; w] /\ shape y = [n; c'; h; w]
    /\ (training = true -> n * (h * w) <> 1).
Proof.
  unfold forward. simpl. unfold nn.batch_norm_shape. intros H.
  destruct (Z.eqb_spec (ndim (shape x)) 4) as [E4 | _]; [| discriminate H].
  destruct (ndim_4_inv _ E4) as (a & b & c0 & e & Es).
  rewrite Es in H. simpl negb in H. cbv iota in H.
  assert (En : numel [c0; e] = c0 * e) by (cbv [numel fold_right]; lia).
  rewrite En in H.
  destruct (Z.eqb_spec (a * (c0 * e)) 1) as [E | E].
  - destruct training; [discriminate H |]. cbn [andb] in H.
    destruct (negb _ && negb _); [discriminate H |].
    simpl in H. injection H as <-. exists a, b, c0, e.
    split; [exact Es |]. split; [reflexivity |].
    intros Ht. discriminate Ht.
  - rewrite andb_false_r in H.
    destruct (negb _ && negb _); [discriminate H |].
    simpl in H. injection H as <-. exists a, b, c0, e.
    split; [exact Es |]. split; [reflexivity |].
    intros _. exact E.
Qed.

Lemma forward_activation_shape (l : nn.Layer) (x y : Tensor) :
  nn.is_activation l = true -> forward l x = inr y -> shape y = shape x.
Proof.
  unfold forward. destruct l; try discriminate; intros _ H; simpl in H;
    injection H as <-; reflexivity.
Qed.

End LayerShapes.

(** ** The blocks on any input *)

Section Blocks.

Variable training : bool.
Variable kernel : nn.Kernel.

Let forward := nn.forward training kernel.

(** Opens the forward pass of a container whose children are listed. *)
Ltac open_sequential H :=
  unfold forward in H; rewrite forward_Sequential in H;
  cbn [nn.forward_all] in H.

Lemma lead_4d (lead : list Z) (c h w n c' h' w' : Z) :
  (lead = [] \/ exists m, lead = [m]) ->
  lead ++ [c; h; w] = [n; c'; h'; w'] ->
  lead = [n] /\ c = c' /\ h = h' /\ w = w'.
Proof.
  intros [-> | [m ->]] E; simpl in E.
  - discriminate E.
  - injection E as -> -> -> ->. auto.
Qed.

Lemma ConvBlock_inv (cin cout k : Z) (batch_norm : bool) (x y : Tensor) :
  forward (ConvBlock cin cout k batch_norm) x = inr y ->
  let s := if batch_norm then 2 else 1 in
  exists lead h w,
    (lead = [] \/ exists n, lead = [n])
    /\ shape x = lead ++ [cin; h; w]
    /\ k <= h /\ k <= w
    /\ shape y = lead ++ [if cin =? 0 then 0 else cout;
                           nn.conv_out h k s 0; nn.conv_out w k s 0]
    /\ (batch_norm = true ->
        exists n, lead = [n]
          /\ (training = true ->
              n * (nn.conv_out h k s 0 * nn.conv_out w k s 0) <> 1)).
Proof.
  intros H. destruct batch_norm; unfold ConvBlock in H; open_sequential H.
  - bind_inv H. bind_inv H.
    apply forward_Conv2d_inv in Hx0.
    destruct Hx0 as (lead & h & w & Hl & Ex & Hh & Hw & Ex0).
    apply forward_BatchNorm2d_inv in Hx1.
    destruct Hx1 as (n & c' & h' & w' & Ex0' & Ex1 & Hb).
    rewrite Ex0 in Ex0'.
    destruct (lead_4d _ _ _ _ _ _ _ _ Hl Ex0') as (-> & <- & <- & <-).
    bind_inv H. injection H as <-.
    apply forward_activation_shape in Hx2; [| reflexivity].
    exists [n], h, w. unfold nn.default_padding in *.
    repeat split; eauto; try lia.
    rewrite Hx2, Ex1. reflexivity.
  - bind_inv H. bind_inv H. injection H as <-.
    apply forward_Conv2d_inv in Hx0.
    destruct Hx0 as (lead & h & w & Hl & Ex & Hh & Hw & Ex0).
    apply forward_activation_shape in Hx1; [| reflexivity].
    exists lead, h, w. unfold nn.default_padding, nn.default_stride in *.
    repeat split; auto; try lia; try discriminate.
    rewrite Hx1. exact Ex0.
Qed.

Lemma DeconvBlock_inv (cin cout k stride padding : Z) (batch_norm : bool)
    (x y : Tensor) :
  forward (DeconvBlock cin cout k stride padding batch_norm) x = inr y ->
  exists lead h w,
    (lead = [] \/ exists n, lead = [n])
    /\ shape x = lead ++ [cin; h; w]
    /\ shape y = lead ++ [if cin =? 0 then 0 else cout;
                           nn.deconv_out h k 2 padding;
                           nn.deconv_out w k 2 padding]
    /\ (batch_norm = true -> exists n, lead = [n]).
Proof.
  intros H. destruct batch_norm; unfold DeconvBlock in H; open_sequential H.
  - bind_inv H. bind_inv H.
    apply forward_ConvTranspose2d_inv in Hx0.
    destruct Hx0 as (lead & h & w & Hl & Ex & Hh & Hw & Ex0).
    apply forward_BatchNorm2d_inv in Hx1.
    destruct Hx1 as (n & c' & h' & w' & Ex0' & Ex1 & Hb).
    rewrite Ex0 in Ex0'.
    destruct (lead_4d _ _ _ _ _ _ _ _ Hl Ex0') as (-> & <- & <- & <-).
    bind_inv H. injection H as <-.
    apply forward_activation_shape in Hx2; [| reflexivity].
    exists [n], h, w. repeat split; eauto.
    rewrite Hx2, Ex1. reflexivity.
  - bind_inv H. bind_inv H. injection H as <-.
    apply forward_ConvTranspose2d_inv in Hx0.
    destruct Hx0 as (lead & h & w & Hl & Ex & Hh & Hw & Ex0).
    apply forward_activation_shape in Hx1; [| reflexivity].
    exists lead, h, w. repeat split; auto; try discriminate.
    rewrite Hx1. exact Ex0.
Qed.

End Blocks.

Lemma spatial_eq (n c h w h' w' : Z) :
  h = h' -> w = w' -> [n; c; h; w] = [n; c; h'; w'].
Proof. intros -> ->. reflexivity. Qed.

(** X1.  When a [ConvBlock] with at least one input channel returns on a
    batch of shape (n, c, h, w), then c is [in_channels], the kernel fits the
    input, and the result has shape
    (n, out_channels, (h - k) / s + 1, (w - k) / s + 1) with s = 2 for a
    block with batch norm and s = 1 for one without. *)
Theorem ConvBlock_forward_shape :
  forall training kernel (cin cout k : Z) (batch_norm : bool)
         (x y : Tensor) (n c h w : Z),
    1 <= cin ->
    nn.forward training kernel (ConvBlock cin cout k batch_norm) x = inr y ->
    shape x = [n; c; h; w] ->
    let s := if batch_norm then 2 else 1 in
    c = cin /\ k <= h /\ k <= w
    /\ shape y = [n; cout; (h - k) / s + 1; (w - k) / s + 1].
Proof.
  intros training kernel cin cout k batch_norm x y n c h w Hc H Ex s.
  apply ConvBlock_inv in H.
  destruct H as (lead & h' & w' & Hl & Ex' & Hh & Hw & Ey & _).
  rewrite Ex in Ex'. symmetry in Ex'.
  destruct (lead_4d _ _ _ _ _ _ _ _ Hl Ex') as (-> & -> & -> & ->).
  repeat split; auto. rewrite Ey. unfold nn.conv_out. cbn [app]. subst s.
  destruct (Z.eqb_spec c 0) as [E0 | _]; [lia |].
  apply spatial_eq; rewrite ?Z.mul_0_r, ?Z.add_0_r; reflexivity.
Qed.

Lemma ConvBlock_forward_shape_witness :
  1 <= 32
  /\ exists y,
       nn.forward true zero_kernel (ConvBlock 32 64 3 true)
         (zeros_tensor [16; 32; 29; 29]) = inr y
       /\ shape y = [16; 64; (29 - 3) / 2 + 1; (29 - 3) / 2 + 1].
Proof.
  split; [lia |]. unfold zeros_tensor.
  generalize (nn.zeros [16; 32; 29; 29]) as d. generalize zero_kernel as K.
  intros K d. eexists. split.
  - run_forward. reflexivity.
  - apply (ConvBlock_forward_shape true K 32 64 3 true
             (mkTensor [16; 32; 29; 29] d) _ 16 32 29 29);
      [lia | run_forward; reflexivity | reflexivity].
Defined.

(** A [DeconvBlock] built without input channel returns no channel. *)
Example DeconvBlock_without_input_channel training (kernel : nn.Kernel)
    (d : list Float32) :
  exists y,
    nn.forward training kernel (DeconvBlock 0 3 4 1 0 false)
      (mkTensor [2; 0; 8; 8] d) = inr y
    /\ shape y = [2; 0; 18; 18].
Proof. eexists. split; [run_forward; reflexivity | reflexivity]. Qed.



(** X3.  Whenever a [DeconvBlock] built without batch norm returns, each
    element of its result is NaN or lies in [-1, 1]. *)
Theorem DeconvBlock_without_batch_norm_nan_or_range :
  forall training kernel (cin cout k stride padding : Z) (x y : Tensor),
    nn.forward training kernel
      (DeconvBlock cin cout k stride padding false) x = inr y ->
    nan_or_in_range (-1) 1 y.
Proof.
  intros training kernel cin cout k stride padding x y H.
  change (DeconvBlock cin cout k stride padding false)
    with (nn.Sequential ([nn.ConvTranspose2d cin cout k 2 padding] ++ [nn.Tanh]))
    in H.
  apply forward_Sequential_last in H. destruct H as (x' & Hx').
  exact (forward_Tanh_range _ _ _ _ Hx').
Qed.

Lemma DeconvBlock_without_batch_norm_nan_or_range_witness :
  exists y,
    nn.forward true zero_kernel (DeconvBlock 16 3 4 1 1 false)
      (zeros_tensor [16; 16; 190; 190]) = inr y
    /\ nan_or_in_range (-1) 1 y.
Proof.
  unfold zeros_tensor.
  generalize (nn.zeros [16; 16; 190; 190]) as d. generalize zero_kernel as K.
  intros K d. eexists. split.
  - run_forward. reflexivity.
  - apply (DeconvBlock_without_batch_norm_nan_or_range true K 16 3 4 1 1
             (mkTensor [16; 16; 190; 190] d)).
    run_forward. reflexivity.
Defined.

(** ** The generator on any input *)

Ltac open_container H :=
  rewrite forward_Sequential in H; cbn [nn.forward_all] in H.

Lemma forward_Linear_inv training kernel (fin fout : Z) (x y : Tensor) :
  nn.forward training kernel (nn.Linear fin fout) x = inr y ->
  exists lead, shape x = lead ++ [fin] /\ shape y = lead ++ [fout].
Proof.
  simpl. unfold nn.linear_shape. intros H.
  destruct (rev (shape x)) as [| last lead] eqn:E; [discriminate H |].
  destruct (Z.eqb_spec last fin) as [-> | _]; [| discriminate H].
  simpl in H. injection H as <-. exists (rev lead). split; [| reflexivity].
  rewrite <- (rev_involutive (shape x)), E. reflexivity.
Qed.

Lemma forward_Linear_mismatch training kernel (fin fout last : Z)
    (lead : list Z) (d : list Float32) :
  last <> fin ->
  nn.forward training kernel (nn.Linear fin fout) (mkTensor (lead ++ [last]) d)
  = inl (MatmulShapeError (numel lead) last fin fout).
Proof.
  intros Hne. simpl. unfold nn.linear_shape.
  rewrite rev_app_distr. simpl.
  destruct (Z.eqb_spec last fin) as [E | _]; [contradiction |].
  rewrite numel_rev. reflexivity.
Qed.

Lemma forward_BatchNorm1d_inv training kernel (c : Z) (x y : Tensor) :
  nn.forward training kernel (nn.BatchNorm1d c) x = inr y ->
  shape y = shape x
  /\ exists n c' rest, shape x = n :: c' :: rest.
Proof.
  intros H. split; [exact (forward_BatchNorm1d_shape _ _ _ _ _ H) |].
  simpl in H. unfold nn.batch_norm_shape in H.
  destruct (negb _); [discriminate H |].
  destruct (shape x) as [| n [| ch rest]]; try discriminate H.
  exists n, ch, rest. reflexivity.
Qed.

Lemma view_inv (x y : Tensor) (target : list Z) :
  view x target = inr y -> shape y = target.
Proof.
  unfold view. destruct (_ =? _); [| discriminate].
  intros H. injection H as <-. reflexivity.
Qed.

Lemma DeconvBlock_inv_4d training kernel (cin cout k stride padding : Z)
    (batch_norm : bool) (x y : Tensor) (n c h w : Z) :
  nn.forward training kernel
    (DeconvBlock cin cout k stride padding batch_norm) x = inr y ->
  shape x = [n; c; h; w] ->
  c = cin
  /\ shape y = [n; if cin =? 0 then 0 else cout;
                nn.deconv_out h k 2 padding; nn.deconv_out w k 2 padding].
Proof.
  intros H Ex. apply DeconvBlock_inv in H.
  destruct H as (lead & h' & w' & Hl & Ex' & Ey & _).
  rewrite Ex in Ex'. symmetry in Ex'.
  destruct (lead_4d _ _ _ _ _ _ _ _ Hl Ex') as (-> & -> & -> & ->).
  split; [reflexivity | exact Ey].
Qed.

(** X4.  On a two-dimensional latent batch of shape (B, L), the generator
    built for latent dimension L returns a tensor of shape (B, 3, 380, 380),
    for every L and every B, provided the batch holds more than one sample
    when the modules are in training mode. *)
Theorem Generator_shape_for_every_batch :
  forall training kernel (L c B : Z) (d : list Float32),
    (training = true -> B <> 1) ->
    exists y,
      Generator_forward training kernel (Generator L c) (mkTensor [B; L] d)
        = inr y
      /\ shape y = [B; 3; 380; 380].
Proof.
  intros training kernel L c B d HB.
  exact (Generator_forward_2d training kernel L c B d HB).
Qed.

Lemma Generator_shape_for_every_batch_witness :
  (true = true -> 64 <> 1)
  /\ exists y,
       Generator_forward true zero_kernel (Generator 100 64)
         (zeros_tensor [64; 100]) = inr y
       /\ shape y = [64; 3; 380; 380].
Proof.
  split; [intros _; discriminate |].
  apply (Generator_shape_for_every_batch true zero_kernel 100 64 64
           (nn.zeros [64; 100])).
  intros _. discriminate.
Defined.

(** X5.  A batch of one latent vector: in training mode the first batch norm
    of the generator raises (one value per channel), in evaluation mode the
    generator returns a tensor of shape (1, 3, 380, 380). *)
Theorem Generator_single_sample_batch :
  forall kernel (L c : Z) (d : list Float32),
    Generator_forward true kernel (Generator L c) (mkTensor [1; L] d)
      = inl BatchNormBatchError
    /\ exists y,
         Generator_forward false kernel (Generator L c) (mkTensor [1; L] d)
           = inr y
         /\ shape y = [1; 3; 380; 380].
Proof.
  intros kernel L c d. split.
  - unfold Generator_forward, Generator. cbn. rewrite Z.eqb_refl. reflexivity.
  - apply Generator_forward_2d. discriminate.
Qed.

(** X6.  Whatever the input, the weights and the mode: when the forward pass
    of the generator returns, the input has a first dimension n and the
    result has shape (n, 3, 380, 380). *)
Theorem Generator_forward_shape_inv :
  forall training kernel (L c : Z) (x y : Tensor),
    Generator_forward training kernel (Generator L c) x = inr y ->
    exists n, size0 x = inr n /\ shape y = [n; 3; 380; 380].
Proof.
  intros training kernel L c x y H. unfold Generator_forward in H.
  do 11 bind_inv H. injection H as <-.
  cbn [fc1 norm1 lrelu tconv1 tconv2 tconv3 tconv4 tconv5 tconv6 Generator]
    in *.
  apply forward_Linear_inv in Hx0. destruct Hx0 as (lead & Ex & Ex0).
  apply forward_BatchNorm1d_inv in Hx1.
  destruct Hx1 as (Ex1 & n & c' & rest & Ex0').
  apply forward_LeakyReLU_shape in Hx2.
  assert (En : size0 x = inr n).
  { rewrite Ex0 in Ex0'. unfold size0. rewrite Ex.
    destruct lead as [| a lead']; simpl in *.
    - discriminate Ex0'.
    - injection Ex0' as -> _. reflexivity. }
  assert (En' : x3 = n).
  { unfold size0 in Hx3. rewrite Hx2, Ex1, Ex0' in Hx3.
    injection Hx3 as <-. reflexivity. }
  subst x3. apply view_inv in Hx4.
  destruct (DeconvBlock_inv_4d _ _ _ _ _ _ _ _ _ _ _ _ _ _ Hx5 Hx4) as (_ & E5).
  destruct (DeconvBlock_inv_4d _ _ _ _ _ _ _ _ _ _ _ _ _ _ Hx6 E5) as (_ & E6).
  destruct (DeconvBlock_inv_4d _ _ _ _ _ _ _ _ _ _ _ _ _ _ Hx7 E6) as (_ & E7).
  destruct (DeconvBlock_inv_4d _ _ _ _ _ _ _ _ _ _ _ _ _ _ Hx8 E7) as (_ & E8).
  destruct (DeconvBlock_inv_4d _ _ _ _ _ _ _ _ _ _ _ _ _ _ Hx9 E8) as (_ & E9).
  destruct (DeconvBlock_inv_4d _ _ _ _ _ _ _ _ _ _ _ _ _ _ Hx10 E9)
    as (_ & E10).
  exists n. split; [exact En | exact E10].
Qed.

Lemma Generator_forward_shape_inv_witness :
  exists y,
    Generator_forward true zero_kernel
      (Generator 128 Generator_default_conv_dim) (zeros_tensor [16; 128])
      = inr y
    /\ exists n,
         size0 (zeros_tensor [16; 128]) = inr n /\ shape y = [n; 3; 380; 380].
Proof.
  unfold zeros_tensor.
  generalize (nn.zeros [16; 128]) as d. generalize zero_kernel as K.
  intros K d. eexists. split.
  - run_forward. reflexivity.
  - apply (Generator_forward_shape_inv true K 128 Generator_default_conv_dim
             (mkTensor [16; 128] d)).
    run_forward. reflexivity.
Defined.

(** X7.  An input whose last dimension is not the latent dimension never
    gets past the fully connected layer: the generator raises the
    shape-mismatch error of the matrix product, with the product of the
    leading dimensions as the number of rows. *)
Theorem Generator_rejects_wrong_latent :
  forall training kernel (L c last : Z) (lead : list Z) (d : list Float32),
    last <> L ->
    Generator_forward training kernel (Generator L c)
      (mkTensor (lead ++ [last]) d)
    = inl (MatmulShapeError (numel lead) last L 8192).
Proof.
  intros training kernel L c last lead d Hne.
  unfold Generator_forward. apply bind_inl.
  apply forward_Linear_mismatch. exact Hne.
Qed.

Lemma Generator_rejects_wrong_latent_witness :
  100 <> 128
  /\ Generator_forward true zero_kernel
       (Generator 128 Generator_default_conv_dim)
       (mkTensor ([16] ++ [100]) (nn.zeros [16; 100]))
     = inl (MatmulShapeError (numel [16]) 100 128 8192).
Proof.
  split; [discriminate |].
  apply (Generator_rejects_wrong_latent true zero_kernel 128
           Generator_default_conv_dim 100 [16]).
  discriminate.
Defined.

(** X8.  For every latent dimension L and every B, the generator raises on a
    four-dimensional latent batch of shape (B, L, 1, 1): at the fully
    connected layer when L is not 1, and at the first batch norm, which
    takes no four-dimensional input, when L is 1. *)
Theorem Generator_4d_latent_always_raises :
  forall training kernel (L c B : Z) (d : list Float32),
    Generator_forward training kernel (Generator L c)
      (mkTensor [B; L; 1; 1] d)
    = inl (if L =? 1 then BatchNormDimError 4
           else MatmulShapeError (B * L) 1 L 8192).
Proof.
  intros training kernel L c B d.
  destruct (Z.eqb_spec L 1) as [-> | Hne].
  - reflexivity.
  - unfold Generator_forward. apply bind_inl. cbn [fc1 Generator].
    change [B; L; 1; 1] with ([B; L; 1] ++ [1]).
    rewrite forward_Linear_mismatch by auto.
    do 2 f_equal. cbv [numel fold_right]. lia.
Qed.

(** ** The discriminator on any input *)

Lemma ConvBlock_inv_4d training kernel (cin cout k : Z) (batch_norm : bool)
    (x y : Tensor) (n c h w : Z) :
  nn.forward training kernel (ConvBlock cin cout k batch_norm) x = inr y ->
  shape x = [n; c; h; w] ->
  let s := if batch_norm then 2 else 1 in
  c = cin /\ k <= h /\ k <= w
  /\ shape y = [n; if cin =? 0 then 0 else cout;
                nn.conv_out h k s 0; nn.conv_out w k s 0].
Proof.
  intros H Ex s. apply ConvBlock_inv in H.
  destruct H as (lead & h' & w' & Hl & Ex' & Hh & Hw & Ey & _).
  rewrite Ex in Ex'. symmetry in Ex'.
  destruct (lead_4d _ _ _ _ _ _ _ _ Hl Ex') as (-> & -> & -> & ->).
  repeat split; auto.
Qed.

(** The sizes of an image side after the four blocks of the discriminator. *)
Lemma Discriminator_inv training kernel (conv_dim : Z) (x y : Tensor) :
  Discriminator_forward training kernel (Discriminator conv_dim) x = inr y ->
  let s3 i :=
    nn.conv_out (nn.conv_out (nn.conv_out i 4 1 0) 3 2 0) 4 2 0 in
  let s4 i := nn.conv_out (s3 i) 4 2 0 in
  exists n h w,
    shape x = [n; 3; h; w]
    /\ 4 <= s3 h /\ 4 <= s3 w
    /\ s4 h * s4 w = 4
    /\ shape y = [n; 1].
Proof.
  intros H s3 s4. unfold Discriminator_forward, Discriminator in H.
  open_container H. do 7 bind_inv H. injection H as <-.
  pose proof (ConvBlock_inv _ _ _ _ _ _ _ _ Hx0) as I1.
  destruct I1 as (lead & h & w & Hl & Ex & _ & _ & Ex0 & _).
  pose proof (ConvBlock_inv _ _ _ _ _ _ _ _ Hx1) as I2.
  destruct I2 as (lead2 & h1 & w1 & _ & Ex0' & _ & _ & _ & Hn).
  destruct (Hn eq_refl) as (n & -> & _). clear Hn.
  rewrite Ex0 in Ex0'.
  destruct (lead_4d _ _ _ _ _ _ _ _ Hl Ex0') as (-> & _ & _ & _).
  clear Ex0' h1 w1. cbn [app] in Ex, Ex0.
  destruct (ConvBlock_inv_4d _ _ _ _ _ _ _ _ _ _ _ _ Hx1 Ex0)
    as (_ & _ & _ & E1).
  destruct (ConvBlock_inv_4d _ _ _ _ _ _ _ _ _ _ _ _ Hx2 E1)
    as (_ & _ & _ & E2).
  destruct (ConvBlock_inv_4d _ _ _ _ _ _ _ _ _ _ _ _ Hx3 E2)
    as (_ & Hh & Hw & E3).
  assert (E4 : shape x4 = [n; numel [256; s4 h; s4 w]]).
  { cbn [nn.forward nn.out_shape bind Ok] in Hx4. injection Hx4 as <-.
    cbn [shape]. rewrite E3. reflexivity. }
  apply forward_Linear_inv in Hx5. destruct Hx5 as (lead5 & E4' & E5).
  rewrite E4 in E4'.
  assert (L5 : lead5 = [n] /\ numel [256; s4 h; s4 w] = 1024).
  { destruct lead5 as [| a [| b l]]; cbn [app] in E4'.
    - discriminate E4'.
    - injection E4' as E1' E2'. subst a. split; [reflexivity | exact E2'].
    - destruct l; discriminate E4'. }
  destruct L5 as (-> & Hnum).
  apply forward_activation_shape in Hx6; [| reflexivity].
  exists n, h, w. split; [exact Ex |].
  split; [exact Hh |]. split; [exact Hw |].
  split; [cbv [numel fold_right] in Hnum; lia |].
  rewrite Hx6, E5. reflexivity.
Qed.

(** X9.  Whatever the input, the weights and the mode: when the forward pass
    of the discriminator returns, the input is a batch of three-channel
    images, of shape (n, 3, h, w), and the result has shape (n, 1). *)
Theorem Discriminator_forward_shape_inv :
  forall training kernel (conv_dim : Z) (x y : Tensor),
    Discriminator_forward training kernel (Discriminator conv_dim) x = inr y ->
    exists n h w, shape x = [n; 3; h; w] /\ shape y = [n; 1].
Proof.
  intros training kernel conv_dim x y H.
  destruct (Discriminator_inv _ _ _ _ _ H) as (n & h & w & Ex & _ & _ & _ & Ey).
  exists n, h, w. split; assumption.
Qed.

Lemma Discriminator_forward_shape_inv_witness :
  exists y,
    Discriminator_forward true zero_kernel (Discriminator 64)
      (zeros_tensor [16; 3; 32; 32]) = inr y
    /\ exists n h w,
         shape (zeros_tensor [16; 3; 32; 32]) = [n; 3; h; w]
         /\ shape y = [n; 1].
Proof.
  unfold zeros_tensor.
  generalize (nn.zeros [16; 3; 32; 32]) as d. generalize zero_kernel as K.
  intros K d. eexists. split.
  - run_forward. reflexivity.
  - apply (Discriminator_forward_shape_inv true K 64
             (mkTensor [16; 3; 32; 32] d)).
    run_forward. reflexivity.
Defined.

(** Splits a bound on an image side into the sides it allows. *)
Ltac each_side H :=
  repeat (destruct H as [<- | H]); [.. | contradiction H].

(** X10.  The discriminator returns a tensor of shape (B, 1) on every batch
    of three-channel images whose height and width lie between 32 and 39. *)
Theorem Discriminator_accepts_sides_32_to_39 :
  forall training kernel (conv_dim B h w : Z) (d : list Float32),
    0 < B -> 32 <= h <= 39 -> 32 <= w <= 39 ->
    exists y,
      Discriminator_forward training kernel (Discriminator conv_dim)
        (mkTensor [B; 3; h; w] d) = inr y
      /\ shape y = [B; 1].
Proof.
  intros training kernel conv_dim B h w d HB Hh Hw.
  assert (Ih : In h [32; 33; 34; 35; 36; 37; 38; 39]) by (simpl; lia).
  assert (Iw : In w [32; 33; 34; 35; 36; 37; 38; 39]) by (simpl; lia).
  clear Hh Hw. simpl in Ih, Iw.
  unfold Discriminator_forward, Discriminator, ConvBlock.
  each_side Ih; each_side Iw; destruct training; cbn;
    repeat batch_check; eexists; split; reflexivity.
Qed.

Lemma Discriminator_accepts_sides_32_to_39_witness :
  0 < 16 /\ 32 <= 36 <= 39 /\ 32 <= 39 <= 39
  /\ exists y,
       Discriminator_forward true zero_kernel (Discriminator 64)
         (zeros_tensor [16; 3; 36; 39]) = inr y
       /\ shape y = [16; 1].
Proof.
  split; [reflexivity |]. split; [lia |]. split; [lia |].
  apply (Discriminator_accepts_sides_32_to_39 true zero_kernel 64 16 36 39
           (nn.zeros [16; 3; 36; 39])); [reflexivity | lia | lia].
Defined.

(** X11.  On square images the sides 32 to 39 are the only ones: when the
    discriminator returns on a batch of shape (n, 3, s, s), then
    32 <= s <= 39. *)
Theorem Discriminator_square_side_32_to_39 :
  forall training kernel (conv_dim n s : Z) (d : list Float32) (y : Tensor),
    Discriminator_forward training kernel (Discriminator conv_dim)
      (mkTensor [n; 3; s; s] d) = inr y ->
    32 <= s <= 39.
Proof.
  intros training kernel conv_dim n s d y H.
  destruct (Discriminator_inv _ _ _ _ _ H)
    as (n' & h & w & Ex & H3 & _ & H4 & _).
  cbn [shape] in Ex. injection Ex as <- <- <-.
  unfold nn.conv_out in H3, H4.
  repeat rewrite ?Z.mul_0_r, ?Z.add_0_r, ?Z.div_1_r in H3.
  repeat rewrite ?Z.mul_0_r, ?Z.add_0_r, ?Z.div_1_r in H4.
  set (s3 := ((s - 4 + 1 - 3) / 2 + 1 - 4) / 2 + 1) in *.
  assert (E4 : (s3 - 4) / 2 + 1 = 2).
  { assert (1 <= (s3 - 4) / 2 + 1)
      by (Z.to_euclidean_division_equations; lia).
    nia. }
  subst s3. Z.to_euclidean_division_equations. lia.
Qed.

Lemma Discriminator_square_side_32_to_39_witness :
  exists y,
    Discriminator_forward true zero_kernel (Discriminator 64)
      (mkTensor [16; 3; 39; 39] (nn.zeros [16; 3; 39; 39])) = inr y
    /\ 32 <= 39 <= 39.
Proof.
  generalize (nn.zeros [16; 3; 39; 39]) as d. generalize zero_kernel as K.
  intros K d. eexists. split.
  - run_forward. reflexivity.
  - eapply (Discriminator_square_side_32_to_39 true K 64 16 39 d).
    run_forward. reflexivity.
Defined.

(** X12.  A batch of images that do not have three channels is rejected by
    the first convolution of the discriminator. *)
Theorem Discriminator_rejects_wrong_channels :
  forall training kernel (conv_dim n c h w : Z) (d : list Float32),
    c <> 3 ->
    Discriminator_forward training kernel (Discriminator conv_dim)
      (mkTensor [n; c; h; w] d)
    = inl (ConvChannelError 3 c).
Proof.
  intros training kernel conv_dim n c h w d Hc.
  unfold Discriminator_forward, Discriminator.
  rewrite forward_Sequential. cbn [nn.forward_all]. apply bind_inl.
  unfold ConvBlock. rewrite forward_Sequential. cbn [nn.forward_all].
  apply bind_inl.
  cbn [nn.forward nn.out_shape shape]. unfold nn.conv2d_shape.
  change (nn.bad_conv_params 32 4 nn.default_stride nn.default_padding)
    with false.
  cbv iota.
  destruct (Z.eqb_spec c 3) as [E | _]; [contradiction |]. reflexivity.
Qed.

Lemma Discriminator_rejects_wrong_channels_witness :
  1 <> 3
  /\ Discriminator_forward true zero_kernel (Discriminator 64)
       (mkTensor [16; 1; 32; 32] (nn.zeros [16; 1; 32; 32]))
     = inl (ConvChannelError 3 1).
Proof.
  split; [discriminate |].
  apply (Discriminator_rejects_wrong_channels true zero_kernel 64 16 1 32 32).
  discriminate.
Defined.

(** ** When the blocks and the generator return *)

(** A one-dimensional batch norm returns on two- and three-dimensional
    inputs, which have the right number of channels or no element. *)
Lemma forward_BatchNorm1d_dims training kernel (c : Z) (x y : Tensor) :
  nn.forward training kernel (nn.BatchNorm1d c) x = inr y ->
  exists n c',
    ((shape x = [n; c']) \/ (exists l, shape x = [n; c'; l]))
    /\ (c' = c \/ numel (shape x) = 0).
Proof.
  intros H. simpl in H. unfold nn.batch_norm_shape in H. cbv beta in H.
  destruct ((ndim (shape x) =? 2) || (ndim (shape x) =? 3)) eqn:Ed;
    [| discriminate H].
  cbn [negb] in H.
  assert (Hd : ndim (shape x) = 2 \/ ndim (shape x) = 3).
  { apply orb_true_iff in Ed. destruct Ed as [E | E];
      apply Z.eqb_eq in E; auto. }
  clear Ed. unfold ndim in Hd.
  assert (Hc : forall n ch rest,
             shape x = n :: ch :: rest -> ch = c \/ numel (shape x) = 0).
  { intros n ch rest E. rewrite E in H |- *.
    destruct (training && _); [discriminate H |].
    destruct (Z.eqb_spec ch c) as [Ec | _]; [left; exact Ec |].
    destruct (Z.eqb_spec (numel (n :: ch :: rest)) 0) as [E0 | _];
      [right; exact E0 | discriminate H]. }
  destruct (shape x) as [| n [| ch [| l [| ? ?]]]] eqn:Es;
    simpl length in Hd; try lia.
  - exists n, ch. split; [left; reflexivity | exact (Hc _ _ _ eq_refl)].
  - exists n, ch. split; [right; exists l; reflexivity |].
    exact (Hc _ _ _ eq_refl).
Qed.

(** X13.  The generator returns on two-dimensional latent batches only: when
    its forward pass returns, the input has shape (n, L), or is an empty
    three-dimensional tensor, of shape (0, c, L). *)
Theorem Generator_accepts_only_2d :
  forall training kernel (L c : Z) (x y : Tensor),
    Generator_forward training kernel (Generator L c) x = inr y ->
    (exists n, shape x = [n; L]) \/ (exists m, shape x = [0; m; L]).
Proof.
  intros training kernel L c x y H. unfold Generator_forward in H.
  do 5 bind_inv H. clear H.
  cbn [fc1 norm1 lrelu Generator] in *.
  apply forward_Linear_inv in Hx0. destruct Hx0 as (lead & Ex & Ex0).
  pose proof (forward_BatchNorm1d_dims _ _ _ _ _ Hx1) as Hd.
  apply forward_BatchNorm1d_shape in Hx1.
  apply forward_LeakyReLU_shape in Hx2.
  rewrite Ex0 in Hd.
  destruct Hd as (n & c' & [E | (l & E)] & Hc).
  - left. exists n. rewrite Ex.
    destruct lead as [| a [| b lead']]; cbn [app] in E.
    + discriminate E.
    + injection E as -> _. reflexivity.
    + destruct lead'; discriminate E.
  - right. rewrite Ex.
    destruct lead as [| a [| b [| ? lead']]]; cbn [app] in E;
      try discriminate E.
    + injection E as -> -> <-.
      unfold size0 in Hx3. rewrite Hx2, Hx1, Ex0 in Hx3. cbn [app] in Hx3.
      injection Hx3 as <-.
      unfold view in Hx4. rewrite Hx2, Hx1, Ex0 in Hx4. cbn [app] in Hx4.
      destruct (Z.eqb_spec (numel [n; 512; 4; 4]) (numel [n; c'; 8192]))
        as [En | _]; [| discriminate Hx4].
      cbn [app] in Hc. cbv [numel fold_right] in En, Hc.
      assert (n = 0) by (destruct Hc as [-> | Hz]; nia).
      subst n. exists c'. reflexivity.
    + destruct lead'; discriminate E.
Qed.

Lemma Generator_accepts_only_2d_witness :
  exists y,
    Generator_forward true zero_kernel
      (Generator 128 Generator_default_conv_dim) (zeros_tensor [16; 128])
      = inr y
    /\ ((exists n, shape (zeros_tensor [16; 128]) = [n; 128])
        \/ (exists m, shape (zeros_tensor [16; 128]) = [0; m; 128])).
Proof.
  unfold zeros_tensor.
  generalize (nn.zeros [16; 128]) as d. generalize zero_kernel as K.
  intros K d. eexists. split.
  - run_forward. reflexivity.
  - eapply (Generator_accepts_only_2d true K 128 Generator_default_conv_dim
              (mkTensor [16; 128] d)).
    run_forward. reflexivity.
Defined.

Lemma forward_BatchNorm2d_4d training (kernel : nn.Kernel) (c n h w : Z)
    (d : list Float32) :
  (training = true -> n * (h * w) <> 1) ->
  exists d',
    nn.forward training kernel (nn.BatchNorm2d c) (mkTensor [n; c; h; w] d)
    = inr (mkTensor [n; c; h; w] d').
Proof.
  intros Hb. cbn [nn.forward nn.out_shape shape data].
  unfold nn.batch_norm_shape.
  change (negb (ndim [n; c; h; w] =? 4)) with false. cbv iota.
  replace (numel [h; w]) with (h * w) by (cbv [numel fold_right]; lia).
  assert (E : training && (n * (h * w) =? 1) = false).
  { destruct training; [| reflexivity].
    apply Z.eqb_neq. apply Hb. reflexivity. }
  rewrite E, Z.eqb_refl. cbn [negb andb]. eexists. reflexivity.
Qed.

(** X14.  A [ConvBlock] with at least one input channel, one output channel
    and a kernel of side at least 1 returns on every batch of shape
    (n, in_channels, h, w) that the kernel fits, with shape
    (n, out_channels, (h - k) / s + 1, (w - k) / s + 1), s = 2 with batch
    norm and 1 without; the one exception is a block with batch norm in
    training mode whose result would hold a single value per channel. *)
Theorem ConvBlock_returns :
  forall training kernel (cin cout k : Z) (batch_norm : bool)
         (n h w : Z) (d : list Float32),
    let s := if batch_norm then 2 else 1 in
    let oh := (h - k) / s + 1 in
    let ow := (w - k) / s + 1 in
    1 <= cin -> 1 <= cout -> 1 <= k ->
    k <= h -> k <= w ->
    (training = true -> batch_norm = true -> n * (oh * ow) <> 1) ->
    exists y,
      nn.forward training kernel (ConvBlock cin cout k batch_norm)
        (mkTensor [n; cin; h; w] d) = inr y
      /\ shape y = [n; cout; oh; ow].
Proof.
  intros training kernel cin cout k batch_norm n h w d s oh ow
    Hcin Hcout Hk Hh Hw Hb.
  assert (Ec : forall st, 1 <= st ->
             nn.forward training kernel (nn.Conv2d cin cout k st 0)
               (mkTensor [n; cin; h; w] d)
             = inr (mkTensor [n; cout; (h - k) / st + 1; (w - k) / st + 1]
                      (kernel (nn.Conv2d cin cout k st 0) [n; cin; h; w] d))).
  { intros st Hst. cbn [nn.forward nn.out_shape shape data].
    unfold nn.conv2d_shape, nn.conv_out.
    rewrite bad_conv_params_ok by lia.
    rewrite Z.eqb_refl, Z.mul_0_r, !Z.add_0_r. cbn [negb].
    destruct (Z.ltb_spec h k); [lia |].
    destruct (Z.ltb_spec w k); [lia |].
    rewrite empty_image_false by lia.
    destruct (Z.eqb_spec cin 0); [lia |]. reflexivity. }
  subst s oh ow. destruct batch_norm; unfold ConvBlock;
    rewrite forward_Sequential; cbn [nn.forward_all];
    unfold nn.default_padding, nn.default_stride; rewrite Ec by lia;
    cbn [bind].
  - destruct (forward_BatchNorm2d_4d training kernel cout n
                ((h - k) / 2 + 1) ((w - k) / 2 + 1)
                (kernel (nn.Conv2d cin cout k 2 0) [n; cin; h; w] d))
      as (d' & Ed); [auto |].
    rewrite Ed. cbn [bind]. eexists. split; reflexivity.
  - eexists. split; reflexivity.
Qed.

Lemma ConvBlock_returns_witness :
  1 <= 32 /\ 1 <= 64 /\ 1 <= 3 /\ 3 <= 29 /\ 3 <= 29
  /\ (true = true -> true = true ->
      16 * (((29 - 3) / 2 + 1) * ((29 - 3) / 2 + 1)) <> 1)
  /\ exists y,
       nn.forward true zero_kernel (ConvBlock 32 64 3 true)
         (mkTensor [16; 32; 29; 29] (nn.zeros [16; 32; 29; 29])) = inr y
       /\ shape y = [16; 64; (29 - 3) / 2 + 1; (29 - 3) / 2 + 1].
Proof.
  do 5 (split; [lia |]).
  split; [intros _ _; discriminate |].
  apply (ConvBlock_returns true zero_kernel 32 64 3 true 16 29 29);
    [lia | lia | lia | lia | lia | intros _ _; discriminate].
Defined.

(** X15.  A [DeconvBlock] with at least one input channel, one output
    channel, a kernel of side at least 1 and a padding that is not negative
    returns on every batch of shape (n, in_channels, h, w) of images with at
    least one row and one column for which the output sides
    2 (h - 1) - 2 padding + k and 2 (w - 1) - 2 padding + k are positive,
    with these sides; the one exception is a block with batch norm in
    training mode whose result would hold a single value per channel. *)
Theorem DeconvBlock_returns :
  forall training kernel (cin cout k stride padding : Z) (batch_norm : bool)
         (n h w : Z) (d : list Float32),
    let oh := 2 * (h - 1) - 2 * padding + k in
    let ow := 2 * (w - 1) - 2 * padding + k in
    1 <= cin -> 1 <= cout -> 1 <= k -> 0 <= padding ->
    1 <= h -> 1 <= w ->
    1 <= oh -> 1 <= ow ->
    (training = true -> batch_norm = true -> n * (oh * ow) <> 1) ->
    exists y,
      nn.forward training kernel
        (DeconvBlock cin cout k stride padding batch_norm)
        (mkTensor [n; cin; h; w] d) = inr y
      /\ shape y = [n; cout; oh; ow].
Proof.
  intros training kernel cin cout k stride padding batch_norm n h w d
    oh ow Hcin Hcout Hk Hp Hh1 Hw1 Hh Hw Hb.
  assert (Ec : nn.forward training kernel
                 (nn.ConvTranspose2d cin cout k 2 padding)
                 (mkTensor [n; cin; h; w] d)
               = inr (mkTensor [n; cout; oh; ow]
                        (kernel (nn.ConvTranspose2d cin cout k 2 padding)
                           [n; cin; h; w] d))).
  { cbn [nn.forward nn.out_shape shape data].
    unfold nn.conv_transpose2d_shape, nn.deconv_out.
    rewrite bad_conv_params_ok by lia.
    rewrite Z.eqb_refl. cbn [negb].
    rewrite empty_image_false by lia.
    replace ((h - 1) * 2 - 2 * padding + k) with oh by (subst oh; lia).
    replace ((w - 1) * 2 - 2 * padding + k) with ow by (subst ow; lia).
    destruct (Z.ltb_spec oh 0); [lia |].
    destruct (Z.ltb_spec ow 0); [lia |].
    destruct (Z.eqb_spec cin 0); [lia |]. reflexivity. }
  destruct batch_norm; unfold DeconvBlock;
    rewrite forward_Sequential; cbn [nn.forward_all];
    rewrite Ec; cbn [bind].
  - destruct (forward_BatchNorm2d_4d training kernel cout n oh ow
                (kernel (nn.ConvTranspose2d cin cout k 2 padding)
                   [n; cin; h; w] d))
      as (d' & Ed); [auto |].
    rewrite Ed. cbn [bind]. eexists. split; reflexivity.
  - eexists. split; reflexivity.
Qed.

Lemma DeconvBlock_returns_witness :
  1 <= 512 /\ 1 <= 256 /\ 1 <= 4 /\ 0 <= 0 /\ 1 <= 4 /\ 1 <= 4
  /\ 1 <= 2 * (4 - 1) - 2 * 0 + 4 /\ 1 <= 2 * (4 - 1) - 2 * 0 + 4
  /\ (true = true -> true = true ->
      16 * ((2 * (4 - 1) - 2 * 0 + 4) * (2 * (4 - 1) - 2 * 0 + 4)) <> 1)
  /\ exists y,
       nn.forward true zero_kernel (DeconvBlock 512 256 4 2 0 true)
         (mkTensor [16; 512; 4; 4] (nn.zeros [16; 512; 4; 4])) = inr y
       /\ shape y = [16; 256; 2 * (4 - 1) - 2 * 0 + 4; 2 * (4 - 1) - 2 * 0 + 4].
Proof.
  do 8 (split; [lia |]).
  split; [intros _ _; discriminate |].
  apply (DeconvBlock_returns true zero_kernel 512 256 4 2 0 true 16 4 4);
    [lia | lia | lia | lia | lia | lia | lia | lia | intros _ _; discriminate].
Defined.
